(** * goxp-client-server-api: the quotation server and its client

    A shallow embedding of [server/server.go] and [client/client.go].

    The two programs are glue around Go's standard library (context,
    net/http, encoding/json, database/sql, os, log).  The library
    operations they call are modelled in [Module Go], each from its
    documented behaviour; the programs themselves are transcribed
    function by function in [Module Server] and [Module Client], over
    a small process monad that threads the clock, the database, the
    file system, the log and a trace of the blocking calls. *)

From Stdlib Require Import ZArith String Ascii List DecimalString Bool Lia.
From stdpp Require Import base option gmap strings list.

Local Open Scope Z_scope.

(* ===================================================================== *)
(** * The Go standard library, as far as the two programs use it *)
(* ===================================================================== *)

Module Go.

(** ** Errors

    A Go [error] is a value with an [Error()] text and an [Unwrap]
    chain.  [Wrap] is what [fmt.Errorf("prefix %w", err)] and
    [*url.Error] build. *)

Inductive error : Type :=
| ErrNew (msg : string)                       (* errors.New(msg) and other opaque leaves *)
| DeadlineExceeded                            (* context.DeadlineExceeded *)
| SyntaxError (msg : string)                  (* *json.SyntaxError, io errors while reading a body *)
| UnmarshalTypeError (value gotype : string)  (* *json.UnmarshalTypeError *)
| Wrap (prefix : string) (inner : error).

#[global] Instance error_eq_dec : EqDecision error.
Proof. solve_decision. Defined.

Fixpoint error_Error (e : error) : string :=
  match e with
  | ErrNew msg => msg
  | DeadlineExceeded => "context deadline exceeded"
  | SyntaxError msg => msg
  | UnmarshalTypeError value gotype =>
      "json: cannot unmarshal " +:+ value +:+ " into Go value of type " +:+ gotype
  | Wrap prefix inner => prefix +:+ error_Error inner
  end.

(** [errors.Is(err, target)]: [err] or something on its chain is [target]. *)
Fixpoint errors_Is (err target : error) : bool :=
  if decide (err = target) then true
  else match err with
       | Wrap _ inner => errors_Is inner target
       | _ => false
       end.

(** [fmt.Errorf(prefix + "%w", err)]. *)
Definition fmt_Errorf (prefix : string) (err : error) : error := Wrap prefix err.

Definition dquote : string := String (ascii_of_nat 34) EmptyString.

(** The [*url.Error] that [http.Client.Do] returns. *)
Definition url_Error (op url : string) (err : error) : error :=
  Wrap (op +:+ " " +:+ dquote +:+ url +:+ dquote +:+ ": ") err.

(** ** Time and durations

    Instants and durations are counted in nanoseconds, as [time.Duration]
    does. *)

Definition Duration := Z.
Definition Nanosecond : Duration := 1.
Definition Microsecond : Duration := 1000 * Nanosecond.
Definition Millisecond : Duration := 1000 * Microsecond.
Definition Second : Duration := 1000 * Millisecond.
Definition Minute : Duration := 60 * Second.

Definition digit (d : Z) : string :=
  String (ascii_of_N (Z.to_N (48 + d))) EmptyString.

(** [fmtFrac]: the fraction of [v / 10^prec], least significant digit
    first, without trailing zeros; also returns [v / 10^prec]. *)
Fixpoint fmtFrac_loop (prec : nat) (buf : string) (print : bool) (v : Z)
  : string * bool * Z :=
  match prec with
  | O => (buf, print, v)
  | S prec' =>
      let d := v mod 10 in
      let print := print || negb (d =? 0) in
      let buf := if print then digit d +:+ buf else buf in
      fmtFrac_loop prec' buf print (v / 10)
  end.

Definition fmtFrac (buf : string) (v : Z) (prec : nat) : string * Z :=
  let '(buf, print, v) := fmtFrac_loop prec buf false v in
  (if print then "." +:+ buf else buf, v).

Definition fmtInt (buf : string) (v : Z) : string :=
  NilZero.string_of_uint (N.to_uint (Z.to_N v)) +:+ buf.

(** [time.Duration.String]. *)
Definition Duration_String (d : Duration) : string :=
  let neg := d <? 0 in
  let u := Z.abs d in
  let body :=
    if u <? Second then
      if u =? 0 then "0s"
      else if u <? Microsecond then
        let '(buf, u) := fmtFrac "ns" u 0 in fmtInt buf u
      else if u <? Millisecond then
        let '(buf, u) := fmtFrac "µs" u 3 in fmtInt buf u
      else
        let '(buf, u) := fmtFrac "ms" u 6 in fmtInt buf u
    else
      let '(buf, u) := fmtFrac "s" u 9 in
      let buf := fmtInt buf (u mod 60) in
      let u := u / 60 in
      if 0 <? u then
        let buf := fmtInt ("m" +:+ buf) (u mod 60) in
        let u := u / 60 in
        if 0 <? u then fmtInt ("h" +:+ buf) u else buf
      else buf
  in
  if neg then "-" +:+ body else body.

(** ** Contexts

    Only deadlines are modelled: a context is the instant, if any, at
    which it expires. *)

Record Context : Type := { ctx_deadline : option Z }.

(** [context.Background()]. *)
Definition Background : Context := {| ctx_deadline := None |}.

(** [context.WithDeadline(parent, d)]: when the parent's deadline is
    already earlier than [d] the result is the parent. *)
Definition WithDeadline (parent : Context) (d : Z) : Context :=
  match ctx_deadline parent with
  | Some cur => if cur <? d then parent else {| ctx_deadline := Some d |}
  | None => {| ctx_deadline := Some d |}
  end.

(** Has the context expired at instant [now]? *)
Definition expired (ctx : Context) (now : Z) : bool :=
  match ctx_deadline ctx with
  | Some d => d <=? now
  | None => false
  end.

(** ** JSON values

    Bodies are modelled after lexing and parsing: a body either is no
    JSON text at all or carries one JSON value.  Numbers keep the one
    distinction the decoder makes for an [int] target: plain integer
    literals against literals with a fraction or an exponent. *)

#[warnings="-register-all"] Inductive json : Type :=
| JNull
| JBool (b : bool)
| JInt (n : Z)
| JFloat (literal : string)
| JString (s : string)
| JArray (elems : list json)
| JObject (members : list (string * json)).

Inductive Body : Type :=
| Malformed (err : string)      (* not JSON: a syntax error, or the stream could not be read *)
| WellFormed (v : json).        (* syntactically valid JSON *)

(** The word [UnmarshalTypeError] uses for a value. *)
Definition json_kind (v : json) : string :=
  match v with
  | JNull => "null"
  | JBool _ => "bool"
  | JInt _ | JFloat _ => "number"
  | JString _ => "string"
  | JArray _ => "array"
  | JObject _ => "object"
  end.

(** *** Matching object keys to struct fields

    The decoder takes the field whose name equals the key, and
    otherwise the field whose name equals it under case folding.
    [foldName] upper-cases ASCII letters; of the runes outside ASCII
    only U+017F (long s) and U+212A (Kelvin sign) fold to an ASCII
    letter, every other rune stays outside ASCII and so never matches
    the ASCII field names of this program. *)

Definition upper (c : ascii) : ascii :=
  let n := N_of_ascii c in
  if ((97 <=? n) && (n <=? 122))%N then ascii_of_N (n - 32) else c.

Fixpoint foldName (s : string) : string :=
  match s with
  | EmptyString => EmptyString
  | String c rest =>
      match N_of_ascii c, rest with
      | 197%N, String c1 rest1 =>                       (* C5 BF = U+017F *)
          if (N_of_ascii c1 =? 191)%N then String "S" (foldName rest1)
          else String c (foldName rest)
      | 226%N, String c1 (String c2 rest2) =>           (* E2 84 AA = U+212A *)
          if ((N_of_ascii c1 =? 132) && (N_of_ascii c2 =? 170))%N
          then String "K" (foldName rest2)
          else String c (foldName rest)
      | _, _ => String (upper c) (foldName rest)
      end
  end.

Definition matches (field key : string) : bool :=
  String.eqb (foldName key) (foldName field).

Definition lookup_field {T : Type} (fields : list (string * T)) (key : string)
  : option T :=
  match find (fun fd => String.eqb (fst fd) key) fields with
  | Some fd => Some (snd fd)
  | None => snd <$> find (fun fd => matches (fst fd) key) fields
  end.

(** Keep the earliest error ([d.saveError]). *)
Definition saveError (saved new : option error) : option error :=
  match saved with
  | Some _ => saved
  | None => new
  end.

(** Decoding one value into a [string] field: a JSON string is stored,
    [null] leaves the field as it is, anything else is a type error and
    the field is skipped. *)
Definition decode_string (v : json) (cur : string) : string * option error :=
  match v with
  | JString s => (s, None)
  | JNull => (cur, None)
  | _ => (cur, Some (UnmarshalTypeError (json_kind v) "string"))
  end.

(** Decoding one value into an [int] field (64 bits). *)
Definition decode_int (v : json) (cur : Z) : Z * option error :=
  match v with
  | JInt n =>
      if (- 2 ^ 63 <=? n) && (n <? 2 ^ 63) then (n, None)
      else (cur, Some (UnmarshalTypeError "number" "int"))
  | JNull => (cur, None)
  | _ => (cur, Some (UnmarshalTypeError (json_kind v) "int"))
  end.

(** The decoder of a field, from how the field is read and written. *)
Definition field_of {T V : Type} (dec : json -> V -> V * option error)
    (get : T -> V) (set : V -> T -> T) : json -> T -> T * option error :=
  fun v t => let '(x, e) := dec v (get t) in (set x t, e).

(** Decoding into a struct, generic in the struct: [field key] finds
    the decoder of the field a key matches, if any.  Members are
    handled in order, unknown keys are skipped, and the earliest error
    is the one returned. *)
Definition decode_members {T : Type}
    (field : string -> option (json -> T -> T * option error))
    (members : list (string * json)) (cur : T) : T * option error :=
  fold_left
    (fun (acc : T * option error) (kv : string * json) =>
       match field (fst kv) with
       | Some dec =>
           let '(t, e) := dec (snd kv) (fst acc) in (t, saveError (snd acc) e)
       | None => acc
       end)
    members (cur, None).

Definition decode_struct {T : Type} (gotype : string)
    (field : string -> option (json -> T -> T * option error))
    (v : json) (cur : T) : T * option error :=
  match v with
  | JObject members => decode_members field members cur
  | JNull => (cur, None)
  | _ => (cur, Some (UnmarshalTypeError (json_kind v) gotype))
  end.

(** [json.NewDecoder(body).Decode(&x)] with [dec] the decoder of the
    type of [x]: a body that is not JSON leaves [x] alone. *)
Definition Decode {T : Type} (dec : json -> T -> T * option error)
    (body : Body) (cur : T) : T * option error :=
  match body with
  | Malformed err => (cur, Some (SyntaxError err))
  | WellFormed v => dec v cur
  end.

(** ** net/http: the server side of a response

    [response] is the state behind an [http.ResponseWriter]: whether
    the header has gone out, with which status, the JSON documents
    written to the body so far, and how the connection will answer the
    coming [Write] calls ([None]: the bytes are accepted). *)

Definition StatusOK : Z := 200.
Definition StatusInternalServerError : Z := 500.

Record response : Type := {
  wroteHeader : bool;
  status : Z;
  written : list json;
  writes : list (option error);
}.

(** What the server hands to a handler. *)
Definition fresh_response (writes : list (option error)) : response :=
  {| wroteHeader := false; status := 0; written := []; writes := writes |}.

(** [w.WriteHeader(code)]: only the first call counts, a later one is
    superfluous and changes nothing. *)
Definition WriteHeader (w : response) (code : Z) : response :=
  if wroteHeader w then w
  else {| wroteHeader := true; status := code;
          written := written w; writes := writes w |}.

(** [w.Write(doc)]: sends the header with 200 if none has gone out
    yet, then the body bytes. *)
Definition Write (w : response) (doc : json) : response * option error :=
  let w := if wroteHeader w then w else WriteHeader w StatusOK in
  match writes w with
  | Some err :: rest =>
      ({| wroteHeader := wroteHeader w; status := status w;
          written := written w; writes := rest |}, Some err)
  | None :: rest =>
      ({| wroteHeader := wroteHeader w; status := status w;
          written := written w ++ [doc]; writes := rest |}, None)
  | [] =>
      ({| wroteHeader := wroteHeader w; status := status w;
          written := written w ++ [doc]; writes := [] |}, None)
  end.

(** [json.NewEncoder(w).Encode(v)] for a value whose marshalling is
    [doc]: one [Write] of the document. *)
Definition Encode (w : response) (doc : json) : response * option error :=
  Write w doc.

(** ** net/http: the client side

    A peer answers a request after [latency] with a response or with a
    transport error. *)

Record Request : Type := { req_method : string; req_url : string; req_ctx : Context }.

Record Response : Type := { resp_StatusCode : Z; resp_Body : Body }.

Record Peer : Type := { latency : Z; answer : Response + error }.

(** ** database/sql over SQLite

    A database is its tables; a table is its declared columns and its
    rows in insertion order; a row maps column names to text. *)

Record Table : Type := {
  tbl_columns : list (string * string);
  tbl_rows : list (gmap string string);
}.

Inductive Stmt : Type :=
| CreateTableIfNotExists (name : string) (columns : list (string * string))
| InsertInto (name : string) (columns : list string) (placeholders : nat).

(** How the database answers besides what the statements mean: a
    failure of [sql.Open], a failure of [Prepare], the time an [ExecContext] takes and a failure
    of it (a locked or unwritable file and the like). *)
Record Driver : Type := {
  sql_open_fault : option error;
  prepare_fault : option error;
  exec_latency : Z;
  exec_fault : option error;
}.

(** ** os: files *)

Inductive OpenFlag : Type := O_RDONLY | O_WRONLY | O_RDWR | O_APPEND | O_CREATE | O_TRUNC.

#[global] Instance OpenFlag_eq_dec : EqDecision OpenFlag.
Proof. solve_decision. Defined.

Record File : Type := { f_name : string; f_flags : list OpenFlag }.

Record Disk : Type := { open_fault : option error; write_fault : option error }.

(** ** The process

    The state a run threads through: the clock, the database file, the
    files of the working directory, what the standard logger printed,
    and the blocking calls made, oldest first. *)

Inductive Event : Type :=
| EvDo (req : Request)
| EvPrepare (stmt : Stmt)
| EvExec (stmt : Stmt) (ctx : option Context) (args : list string)
| EvOpenFile (name : string)
| EvFileWrite (name data : string).

Record State : Type := {
  clock : Z;
  store : gmap string Table;
  files : gmap string string;
  logged : list string;
  trace : list Event;
}.

Definition set_clock (t : Z) (st : State) : State :=
  {| clock := t; store := store st; files := files st;
     logged := logged st; trace := trace st |}.

Definition set_store (s : gmap string Table) (st : State) : State :=
  {| clock := clock st; store := s; files := files st;
     logged := logged st; trace := trace st |}.

Definition set_files (f : gmap string string) (st : State) : State :=
  {| clock := clock st; store := store st; files := f;
     logged := logged st; trace := trace st |}.

Definition add_log (line : string) (st : State) : State :=
  {| clock := clock st; store := store st; files := files st;
     logged := logged st ++ [line]; trace := trace st |}.

Definition add_event (ev : Event) (st : State) : State :=
  {| clock := clock st; store := store st; files := files st;
     logged := logged st; trace := trace st ++ [ev] |}.

(** A computation returns a value or ends the process ([os.Exit]). *)
Inductive result (A : Type) : Type :=
| Ret (a : A)
| Exit (code : Z).
Arguments Ret {A} a.
Arguments Exit {A} code.

Definition Proc (A : Type) : Type := State -> result A * State.

#[global] Instance Proc_ret : MRet Proc := fun A a st => (Ret a, st).

#[global] Instance Proc_bind : MBind Proc := fun A B f m st =>
  match m st with
  | (Ret a, st') => f a st'
  | (Exit code, st') => (Exit code, st')
  end.

Definition modify (f : State -> State) : Proc unit := fun st => (Ret tt, f st).

(** [time.Now()]. *)
Definition time_Now : Proc Z := fun st => (Ret (clock st), st).

(** [context.WithTimeout(parent, timeout)]. *)
Definition WithTimeout (parent : Context) (timeout : Duration) : Proc Context :=
  now ← time_Now; mret (WithDeadline parent (now + timeout)).

(** ** fmt and log *)

Definition newline : string := String (ascii_of_nat 10) EmptyString.

(** [fmt.Sprint] of operands the first of which is a string, as in
    every call of the two programs: no space is added. *)
Definition Sprint (first rest : string) : string := first +:+ rest.

(** [fmt.Sprintln]: operands separated by spaces, then a newline. *)
Fixpoint Sprintln (operands : list string) : string :=
  match operands with
  | [] => newline
  | [x] => x +:+ newline
  | x :: rest => x +:+ " " +:+ Sprintln rest
  end.

(** The standard logger, without the date and time it puts in front. *)
Definition log_Println (operands : list string) : Proc unit :=
  modify (add_log (Sprintln operands)).

Definition log_Fatalln {A : Type} (operands : list string) : Proc A :=
  fun st => (Exit 1, add_log (Sprintln operands) st).

(** [log.Fatalf] with the text already formatted; the format strings
    of the programs end in a newline. *)
Definition log_Fatalf {A : Type} (text : string) : Proc A :=
  fun st => (Exit 1, add_log text st).

(** [%d]. *)
Definition format_d (n : Z) : string := NilZero.string_of_int (Z.to_int n).

(** ** net/http: requests *)

(** [http.NewRequestWithContext(ctx, method, url, nil)]: it fails on an
    invalid method or a URL that does not parse; [fault] says whether
    it does for the given literals. *)
Definition NewRequestWithContext (fault : option error)
    (ctx : Context) (method url : string) : Request + error :=
  match fault with
  | Some err => inr err
  | None => inl {| req_method := method; req_url := url; req_ctx := ctx |}
  end.

Definition lower (c : ascii) : ascii :=
  let n := N_of_ascii c in
  if ((65 <=? n) && (n <=? 90))%N then ascii_of_N (n + 32) else c.

Fixpoint map_string (f : ascii -> ascii) (s : string) : string :=
  match s with
  | EmptyString => EmptyString
  | String c rest => String (f c) (map_string f rest)
  end.

(** The [Op] of the [*url.Error]: [Get] for [GET]. *)
Definition urlErrorOp (method : string) : string :=
  match method with
  | EmptyString => "Get"
  | String c rest => String c (map_string lower rest)
  end.

(** [http.DefaultClient.Do(req)]: the call blocks until the peer
    answers or the request's context expires, whichever is first. *)
Definition Client_Do (peer : Peer) (req : Request) : Proc (Response + error) :=
  fun st =>
    let st := add_event (EvDo req) st in
    let now := clock st in
    let arrival := now + Z.max 0 (latency peer) in
    let wrap := url_Error (urlErrorOp (req_method req)) (req_url req) in
    if expired (req_ctx req) arrival then
      (Ret (inr (wrap DeadlineExceeded)),
       set_clock (Z.max now (default now (ctx_deadline (req_ctx req)))) st)
    else
      (Ret match answer peer with
           | inl resp => inl resp
           | inr err => inr (wrap err)
           end,
       set_clock arrival st).

(** ** database/sql: statements *)

Definition known_columns (t : Table) (columns : list string) : bool :=
  forallb (fun c => bool_decide (c ∈ (tbl_columns t).*1)) columns.

(** What SQLite checks when it compiles a statement. *)
Definition check_stmt (stmt : Stmt) (db : gmap string Table) : option error :=
  match stmt with
  | CreateTableIfNotExists _ _ => None
  | InsertInto name columns placeholders =>
      match db !! name with
      | None => Some (ErrNew ("no such table: " +:+ name))
      | Some t =>
          if negb (known_columns t columns)
          then Some (ErrNew ("table " +:+ name +:+ " has no such column"))
          else if negb (length columns =? placeholders)%nat
          then Some (ErrNew "values and columns differ in number")
          else None
      end
  end.

(** What running a statement with its arguments does to the database. *)
Definition run_stmt (stmt : Stmt) (args : list string) (db : gmap string Table)
  : gmap string Table + error :=
  match check_stmt stmt db with
  | Some err => inr err
  | None =>
      match stmt with
      | CreateTableIfNotExists name columns =>
          match db !! name with
          | Some _ => inl db
          | None => inl (<[name := {| tbl_columns := columns; tbl_rows := [] |}]> db)
          end
      | InsertInto name columns placeholders =>
          if negb (length args =? placeholders)%nat
          then inr (ErrNew "sql: wrong number of arguments")
          else
            match db !! name with
            | None => inr (ErrNew ("no such table: " +:+ name))
            | Some t =>
                inl (<[name := {| tbl_columns := tbl_columns t;
                                  tbl_rows := tbl_rows t ++ [list_to_map (zip columns args)] |}]> db)
            end
      end
  end.

(** [sql.Open]. *)
Definition sql_Open (drv : Driver) : option error := sql_open_fault drv.

(** [db.Prepare(query)]. *)
Definition DB_Prepare (drv : Driver) (stmt : Stmt) : Proc (Stmt + error) :=
  fun st =>
    let st := add_event (EvPrepare stmt) st in
    match prepare_fault drv with
    | Some err => (Ret (inr err), st)
    | None =>
        match check_stmt stmt (store st) with
        | Some err => (Ret (inr err), st)
        | None => (Ret (inl stmt), st)
        end
    end.

(** [stmt.ExecContext(ctx, args...)]: a statement the context cuts
    short changes nothing and yields the context's error. *)
Definition Stmt_ExecContext (drv : Driver) (stmt : Stmt) (ctx : Context)
    (args : list string) : Proc (option error) :=
  fun st =>
    let st := add_event (EvExec stmt (Some ctx) args) st in
    let now := clock st in
    let arrival := now + Z.max 0 (exec_latency drv) in
    if expired ctx arrival then
      (Ret (Some DeadlineExceeded),
       set_clock (Z.max now (default now (ctx_deadline ctx))) st)
    else
      let st := set_clock arrival st in
      match exec_fault drv with
      | Some err => (Ret (Some err), st)
      | None =>
          match run_stmt stmt args (store st) with
          | inr err => (Ret (Some err), st)
          | inl db => (Ret None, set_store db st)
          end
      end.

(** [db.Exec(query)]: no context, no arguments. *)
Definition DB_Exec (drv : Driver) (stmt : Stmt) : Proc (option error) :=
  fun st =>
    let st := add_event (EvExec stmt None []) st in
    match exec_fault drv with
    | Some err => (Ret (Some err), st)
    | None =>
        match run_stmt stmt [] (store st) with
        | inr err => (Ret (Some err), st)
        | inl db => (Ret None, set_store db st)
        end
    end.

(** ** os: opening and writing a file *)

Definition has (flag : OpenFlag) (flags : list OpenFlag) : bool :=
  bool_decide (flag ∈ flags).

(** [os.OpenFile(name, flags, perm)]. *)
Definition OpenFile (disk : Disk) (name : string) (flags : list OpenFlag)
  : Proc (File + error) :=
  fun st =>
    let st := add_event (EvOpenFile name) st in
    let file := {| f_name := name; f_flags := flags |} in
    match open_fault disk with
    | Some err => (Ret (inr err), st)
    | None =>
        match files st !! name with
        | None =>
            if has O_CREATE flags
            then (Ret (inl file), set_files (<[name := ""]> (files st)) st)
            else (Ret (inr (ErrNew ("open " +:+ name +:+ ": no such file or directory"))), st)
        | Some _ =>
            if has O_TRUNC flags
            then (Ret (inl file), set_files (<[name := ""]> (files st)) st)
            else (Ret (inl file), st)
        end
    end.

(** Writing [data] over [content] from its first byte on. *)
Definition overwrite (content data : string) : string :=
  data +:+ String.substring (String.length data)
                            (String.length content - String.length data) content.

(** The first write to a file just opened: at the end of the file
    under [O_APPEND], at its start otherwise. *)
Definition File_Write (disk : Disk) (file : File) (data : string)
  : Proc (option error) :=
  fun st =>
    let st := add_event (EvFileWrite (f_name file) data) st in
    match write_fault disk with
    | Some err => (Ret (Some err), st)
    | None =>
        if negb (has O_WRONLY (f_flags file) || has O_RDWR (f_flags file))
        then (Ret (Some (ErrNew ("write " +:+ f_name file +:+ ": bad file descriptor"))), st)
        else
          let content := default "" (files st !! f_name file) in
          let content' := if has O_APPEND (f_flags file)
                          then content +:+ data
                          else overwrite content data in
          (Ret None, set_files (<[f_name file := content']> (files st)) st)
    end.

(** [fmt.Fprintln(file, operands...)]. *)
Definition Fprintln (disk : Disk) (file : File) (operands : list string)
  : Proc (option error) :=
  File_Write disk file (Sprintln operands).

End Go.

(* ===================================================================== *)
(** * server/server.go *)
(* ===================================================================== *)

Module Server.
Import Go.

(** ** The types at the end of the file *)

Module ErrorResponse.

Record t : Type := { Error : string; StatusCode : Z }.

(** What [json.Marshal] makes of it. *)
Definition marshal (e : t) : json :=
  JObject [("error", JString (Error e)); ("status_code", JInt (StatusCode e))].

End ErrorResponse.

Module QuotationResponse.

Record t : Type := { Bid : string }.

Definition marshal (q : t) : json := JObject [("bid", JString (Bid q))].

End QuotationResponse.

Module Quotation.

Record t : Type := {
  Code : string;
  CodeIn : string;
  Name : string;
  High : string;
  Low : string;
  VarBid : string;
  PctChange : string;
  Bid : string;
  Ask : string;
  Timestamp : string;
  CreateDate : string;
}.

Definition zero : t :=
  {| Code := "";
     CodeIn := "";
     Name := "";
     High := "";
     Low := "";
     VarBid := "";
     PctChange := "";
     Bid := "";
     Ask := "";
     Timestamp := "";
     CreateDate := "" |}.

Definition set_Code (x : string) (q : t) : t :=
  {| Code := x; CodeIn := CodeIn q; Name := Name q;
     High := High q; Low := Low q; VarBid := VarBid q;
     PctChange := PctChange q; Bid := Bid q; Ask := Ask q;
     Timestamp := Timestamp q; CreateDate := CreateDate q |}.

Definition set_CodeIn (x : string) (q : t) : t :=
  {| Code := Code q; CodeIn := x; Name := Name q; High := High q;
     Low := Low q; VarBid := VarBid q; PctChange := PctChange q;
     Bid := Bid q; Ask := Ask q; Timestamp := Timestamp q;
     CreateDate := CreateDate q |}.

Definition set_Name (x : string) (q : t) : t :=
  {| Code := Code q; CodeIn := CodeIn q; Name := x;
     High := High q; Low := Low q; VarBid := VarBid q;
     PctChange := PctChange q; Bid := Bid q; Ask := Ask q;
     Timestamp := Timestamp q; CreateDate := CreateDate q |}.

Definition set_High (x : string) (q : t) : t :=
  {| Code := Code q; CodeIn := CodeIn q; Name := Name q;
     High := x; Low := Low q; VarBid := VarBid q;
     PctChange := PctChange q; Bid := Bid q; Ask := Ask q;
     Timestamp := Timestamp q; CreateDate := CreateDate q |}.

Definition set_Low (x : string) (q : t) : t :=
  {| Code := Code q; CodeIn := CodeIn q; Name := Name q;
     High := High q; Low := x; VarBid := VarBid q;
     PctChange := PctChange q; Bid := Bid q; Ask := Ask q;
     Timestamp := Timestamp q; CreateDate := CreateDate q |}.

Definition set_VarBid (x : string) (q : t) : t :=
  {| Code := Code q; CodeIn := CodeIn q; Name := Name q;
     High := High q; Low := Low q; VarBid := x;
     PctChange := PctChange q; Bid := Bid q; Ask := Ask q;
     Timestamp := Timestamp q; CreateDate := CreateDate q |}.

Definition set_PctChange (x : string) (q : t) : t :=
  {| Code := Code q; CodeIn := CodeIn q; Name := Name q;
     High := High q; Low := Low q; VarBid := VarBid q;
     PctChange := x; Bid := Bid q; Ask := Ask q;
     Timestamp := Timestamp q; CreateDate := CreateDate q |}.

Definition set_Bid (x : string) (q : t) : t :=
  {| Code := Code q; CodeIn := CodeIn q; Name := Name q;
     High := High q; Low := Low q; VarBid := VarBid q;
     PctChange := PctChange q; Bid := x; Ask := Ask q;
     Timestamp := Timestamp q; CreateDate := CreateDate q |}.

Definition set_Ask (x : string) (q : t) : t :=
  {| Code := Code q; CodeIn := CodeIn q; Name := Name q;
     High := High q; Low := Low q; VarBid := VarBid q;
     PctChange := PctChange q; Bid := Bid q; Ask := x;
     Timestamp := Timestamp q; CreateDate := CreateDate q |}.

Definition set_Timestamp (x : string) (q : t) : t :=
  {| Code := Code q; CodeIn := CodeIn q; Name := Name q;
     High := High q; Low := Low q; VarBid := VarBid q;
     PctChange := PctChange q; Bid := Bid q; Ask := Ask q;
     Timestamp := x; CreateDate := CreateDate q |}.

Definition set_CreateDate (x : string) (q : t) : t :=
  {| Code := Code q; CodeIn := CodeIn q; Name := Name q;
     High := High q; Low := Low q; VarBid := VarBid q;
     PctChange := PctChange q; Bid := Bid q; Ask := Ask q;
     Timestamp := Timestamp q; CreateDate := x |}.

(** The fields by their [json] tags. *)
Definition fields : list (string * (json -> t -> t * option error)) :=
  [ ("code", field_of decode_string Code set_Code);
    ("codein", field_of decode_string CodeIn set_CodeIn);
    ("name", field_of decode_string Name set_Name);
    ("high", field_of decode_string High set_High);
    ("low", field_of decode_string Low set_Low);
    ("varBid", field_of decode_string VarBid set_VarBid);
    ("pctChange", field_of decode_string PctChange set_PctChange);
    ("bid", field_of decode_string Bid set_Bid);
    ("ask", field_of decode_string Ask set_Ask);
    ("timestamp", field_of decode_string Timestamp set_Timestamp);
    ("create_date", field_of decode_string CreateDate set_CreateDate) ].

Definition decode : json -> t -> t * option error :=
  decode_struct "main.Quotation" (lookup_field fields).

End Quotation.

Module USDBRLQuotation.

(** The embedded [Quotation] carries the tag [USDBRL], so it decodes as
    a field of that name. *)
Record t : Type := { Quotation : Quotation.t }.

Definition zero : t := {| Quotation := Quotation.zero |}.

Definition set_Quotation (q : Quotation.t) (c : t) : t := {| Quotation := q |}.

Definition fields : list (string * (json -> t -> t * option error)) :=
  [ ("USDBRL", field_of Quotation.decode Quotation set_Quotation) ].

Definition decode : json -> t -> t * option error :=
  decode_struct "main.USDBRLQuotation" (lookup_field fields).

End USDBRLQuotation.

Definition cotacaoURL : string := "https://economia.awesomeapi.com.br/json/last/USD-BRL".

(** The statement of [startDatabase]. *)
Definition createCotacao : Stmt :=
  CreateTableIfNotExists "cotacao"
    [ ("code", "TEXT"); ("code_in", "TEXT"); ("name", "TEXT"); ("high", "TEXT");
      ("low", "TEXT"); ("var_bid", "TEXT"); ("pct_change", "TEXT"); ("bid", "TEXT");
      ("ask", "TEXT"); ("timestamp", "TEXT"); ("create_date", "TEXT") ].

(** The statement of [saveQuotationToDB]. *)
Definition insertCotacao : Stmt :=
  InsertInto "cotacao"
    [ "code"; "code_in"; "name"; "high"; "low"; "var_bid"; "pct_change"; "bid";
      "ask"; "timestamp"; "create_date" ]
    11.

(** What the handler meets outside the process: whether the outbound
    request can be built, how the upstream API answers, how the
    database behaves. *)
Record Env : Type := {
  request_fault : option error;
  upstream : Peer;
  driver : Driver;
}.

Section Program.

(** The package-level variables [parseFlagValues] sets. *)
Variable requestTimeout : Duration.
Variable databaseTimeout : Duration.

Variable env : Env.

Definition startDatabase : Proc unit :=
  match sql_Open (driver env) with
  | Some err => log_Fatalln ["Falhou abrir o banco de dados:"; error_Error err]
  | None =>
      err ← DB_Exec (driver env) createCotacao;
      match err with
      | Some err => log_Fatalln ["Falha ao criar tabela de cotacao:"; error_Error err]
      | None => mret tt
      end
  end.

Definition sendMsgError (w : response) (msg : string) (statusCode : Z)
  : Proc response :=
  log_Println [msg];;
  let w := WriteHeader w statusCode in
  let '(w, _) := Encode w (ErrorResponse.marshal
                   {| ErrorResponse.Error := msg;
                      ErrorResponse.StatusCode := statusCode |}) in
  mret w.

Definition saveQuotationToDB (ctx : Context) (cotacao : USDBRLQuotation.t)
  : Proc (option error) :=
  prepared ← DB_Prepare (driver env) insertCotacao;
  match prepared with
  | inr err => mret (Some (fmt_Errorf "falha ao preparar query. " err))
  | inl stmt =>
      dbCtx ← WithTimeout ctx databaseTimeout;
      let q := USDBRLQuotation.Quotation cotacao in
      err ← Stmt_ExecContext (driver env) stmt dbCtx
              [ Quotation.Code q; Quotation.CodeIn q; Quotation.Name q;
                Quotation.High q; Quotation.Low q; Quotation.VarBid q;
                Quotation.PctChange q; Quotation.Bid q; Quotation.Ask q;
                Quotation.Timestamp q; Quotation.CreateDate q ];
      match err with
      | Some err => mret (Some (fmt_Errorf "falha ao executar query. " err))
      | None => mret None
      end
  end.

(** [r] is the context of the inbound request, [r.Context()]. *)
Definition cotacaoHandler (w : response) (r : Context) : Proc response :=
  log_Println ["GET /cotacao"];;
  ctx ← WithTimeout r requestTimeout;
  match NewRequestWithContext (request_fault env) ctx "GET" cotacaoURL with
  | inr err =>
      let msg := Sprint "GET /cotacao - falha ao criar requisi????o: " (error_Error err) in
      sendMsgError w msg StatusInternalServerError
  | inl cotacaoReq =>
      resp ← Client_Do (upstream env) cotacaoReq;
      match resp with
      | inr err =>
          let msg :=
            if errors_Is err DeadlineExceeded
            then Sprint "requisi????o ultrapassou o tempo m??ximo de "
                        (Duration_String requestTimeout)
            else Sprint "GET /cotacao - requisi????o falhou: " (error_Error err) in
          sendMsgError w msg StatusInternalServerError
      | inl resp =>
          let '(cotacao, err) :=
            Decode USDBRLQuotation.decode (resp_Body resp) USDBRLQuotation.zero in
          match err with
          | Some err =>
              let msg := Sprint "GET /cotacao - falha ao decodificar corpo da requisi????o: "
                                (error_Error err) in
              sendMsgError w msg StatusInternalServerError
          | None =>
              err ← saveQuotationToDB r cotacao;
              match err with
              | Some err =>
                  let msg := Sprint "GET /cotacao - falha ao salvar dados no banco: "
                                    (error_Error err) in
                  sendMsgError w msg StatusInternalServerError
              | None =>
                  let w := WriteHeader w StatusOK in
                  let '(w, err) :=
                    Encode w (QuotationResponse.marshal
                                {| QuotationResponse.Bid :=
                                     Quotation.Bid (USDBRLQuotation.Quotation cotacao) |}) in
                  match err with
                  | Some err =>
                      let msg := Sprint "GET /cotacao - falha ao enviar requisi????o: "
                                        (error_Error err) in
                      sendMsgError w msg StatusInternalServerError
                  | None => mret w
                  end
              end
          end
      end
  end.

End Program.

End Server.

(* ===================================================================== *)
(** * client/client.go *)
(* ===================================================================== *)

Module Client.
Import Go.

Module ErrorResponse.

Record t : Type := { Error : string; StatusCode : Z }.

Definition zero : t := {| Error := ""; StatusCode := 0 |}.

Definition set_Error (x : string) (e : t) : t :=
  {| Error := x; StatusCode := StatusCode e |}.

Definition set_StatusCode (x : Z) (e : t) : t :=
  {| Error := Error e; StatusCode := x |}.

Definition fields : list (string * (json -> t -> t * option error)) :=
  [ ("error", field_of decode_string Error set_Error);
    ("status_code", field_of decode_int StatusCode set_StatusCode) ].

Definition decode : json -> t -> t * option error :=
  decode_struct "main.ErrorResponse" (lookup_field fields).

End ErrorResponse.

Module QuotationResponse.

Record t : Type := { Bid : string }.

Definition zero : t := {| Bid := "" |}.

Definition set_Bid (x : string) (q : t) : t := {| Bid := x |}.

Definition fields : list (string * (json -> t -> t * option error)) :=
  [ ("bid", field_of decode_string Bid set_Bid) ].

Definition decode : json -> t -> t * option error :=
  decode_struct "main.QuotationResponse" (lookup_field fields).

End QuotationResponse.

Definition fileName : string := "cotacao.txt".

(** What the client meets outside the process: whether the request can
    be built, how the server answers, how the disk behaves. *)
Record Env : Type := {
  request_fault : option error;
  server : Peer;
  disk : Disk;
}.

Section Program.

(** The package-level variable [parseFlagValues] sets. *)
Variable requestTimeout : Duration.

Variable env : Env.

Definition saveQuotationToFile (r : Body) : Proc unit :=
  let '(cotacao, err) := Decode QuotationResponse.decode r QuotationResponse.zero in
  match err with
  | Some err => log_Fatalln ["Falha ao decodificar corpo da requisição:"; error_Error err]
  | None =>
      file ← OpenFile (disk env) fileName [O_APPEND; O_CREATE; O_RDWR];
      match file with
      | inr err => log_Fatalln [error_Error err]
      | inl file =>
          let msg := Sprint "Dólar: " (QuotationResponse.Bid cotacao) in
          err ← Fprintln (disk env) file [msg];
          match err with
          | Some err => log_Fatalln ["Falha ao salvar dados em disco:"; error_Error err]
          | None => log_Println ["Registro salvo em disco."; msg]
          end
      end
  end.

Definition handleError (r : Body) : Proc unit :=
  let '(errResp, err) := Decode ErrorResponse.decode r ErrorResponse.zero in
  match err with
  | Some err => log_Fatalln ["Falha ao decodificar corpo da requisição:"; error_Error err]
  | None =>
      log_Fatalf ("Ocorreu um erro: " +:+ ErrorResponse.Error errResp +:+ newline +:+
                  "Código: " +:+ format_d (ErrorResponse.StatusCode errResp) +:+ newline)
  end.

Definition makeRequest : Proc unit :=
  ctx ← WithTimeout Background requestTimeout;
  match NewRequestWithContext (request_fault env) ctx "GET" "http://localhost:8080/cotacao" with
  | inr err => log_Fatalln ["Falha ao criar requisição:"; error_Error err]
  | inl req =>
      resp ← Client_Do (server env) req;
      match resp with
      | inr err =>
          let msg :=
            if errors_Is err DeadlineExceeded
            then Sprint "Requisição ultrapassou o tempo máximo de "
                        (Duration_String requestTimeout)
            else Sprint "Requisição falhou: " (error_Error err) in
          log_Fatalln [msg]
      | inl resp =>
          if resp_StatusCode resp =? StatusOK
          then saveQuotationToFile (resp_Body resp)
          else handleError (resp_Body resp)
      end
  end.

End Program.


(** The outbound requests of a run. *)
Definition requests (st : State) : list Request :=
  omap (fun ev => match ev with EvDo req => Some req | _ => None end) (trace st).

End Client.

(* ===================================================================== *)
(** * Vocabulary of the statements *)
(* ===================================================================== *)

Module Terms.
Import Go Server.


(** The state in which the handler makes its outbound call. *)
Definition entered (st : State) : State := add_log (Sprintln ["GET /cotacao"]) st.

(** The outbound request the handler builds when it starts in [st]. *)
Definition outbound (requestTimeout : Duration) (r : Context) (st : State) : Request :=
  {| req_method := "GET"; req_url := cotacaoURL;
     req_ctx := WithDeadline r (clock st + requestTimeout) |}.

(** The context the insert runs under when [saveQuotationToDB] is
    entered in [st] with context [ctx]. *)
Definition insert_ctx (databaseTimeout : Duration) (ctx : Context) (st : State) : Context :=
  WithDeadline ctx (clock st + databaseTimeout).

(** Will the connection take the next write? *)
Definition accepts (w : response) : bool :=
  match writes w with
  | Some _ :: _ => false
  | _ => true
  end.

Definition error_doc (msg : string) (code : Z) : json :=
  ErrorResponse.marshal {| ErrorResponse.Error := msg; ErrorResponse.StatusCode := code |}.

Definition bid_doc (bid : string) : json :=
  QuotationResponse.marshal {| QuotationResponse.Bid := bid |}.

(** The last step of the handler, from [w.WriteHeader(http.StatusOK)] on. *)
Definition respond (w : response) (cotacao : USDBRLQuotation.t) (st : State)
  : result response * State :=
  let w1 := WriteHeader w StatusOK in
  match Encode w1 (bid_doc (Quotation.Bid (USDBRLQuotation.Quotation cotacao))) with
  | (w2, Some err) =>
      sendMsgError w2 (Sprint "GET /cotacao - falha ao enviar requisi????o: " (error_Error err))
                   StatusInternalServerError st
  | (w2, None) => (Ret w2, st)
  end.

(** The arguments [saveQuotationToDB] binds, and the row they make. *)
Definition quotation_args (q : Quotation.t) : list string :=
  [ Quotation.Code q; Quotation.CodeIn q; Quotation.Name q; Quotation.High q;
    Quotation.Low q; Quotation.VarBid q; Quotation.PctChange q; Quotation.Bid q;
    Quotation.Ask q; Quotation.Timestamp q; Quotation.CreateDate q ].

Definition quotation_row (q : Quotation.t) : gmap string string :=
  list_to_map
    [ ("code", Quotation.Code q); ("code_in", Quotation.CodeIn q);
      ("name", Quotation.Name q); ("high", Quotation.High q);
      ("low", Quotation.Low q); ("var_bid", Quotation.VarBid q);
      ("pct_change", Quotation.PctChange q); ("bid", Quotation.Bid q);
      ("ask", Quotation.Ask q); ("timestamp", Quotation.Timestamp q);
      ("create_date", Quotation.CreateDate q) ].






(** The columns [saveQuotationToDB] names. *)
Definition cotacao_columns : list string :=
  match insertCotacao with
  | InsertInto _ columns _ => columns
  | _ => []
  end.

(** The request the client builds when it starts in [st]. *)
Definition client_request (requestTimeout : Duration) (st : State) : Request :=
  {| req_method := "GET"; req_url := "http://localhost:8080/cotacao";
     req_ctx := WithDeadline Background (clock st + requestTimeout) |}.

(** The events a run added to the trace. *)
Definition events (before after : State) : list Event :=
  drop (length (trace before)) (trace after).

End Terms.

(* ===================================================================== *)
(** * Concrete runs *)
(* ===================================================================== *)

Module Scenario.
Import Go Server Terms.

(** Table [cotacao] as [startDatabase] creates it. *)
Definition cotacao_table : Table :=
  {| tbl_columns :=
       match createCotacao with
       | CreateTableIfNotExists _ columns => columns
       | _ => []
       end;
     tbl_rows := [] |}.

(** A server that has started: the table exists, nothing else. *)
Definition started : State :=
  {| clock := 0; store := {[ "cotacao" := cotacao_table ]}; files := ∅;
     logged := []; trace := [] |}.

(** A machine on which nothing has run yet. *)
Definition blank : State :=
  {| clock := 0; store := ∅; files := ∅; logged := []; trace := [] |}.

(** The upstream body of the scenario of the specification. *)
Definition quotation_body : Body :=
  WellFormed
    (JObject
       [ ("USDBRL",
          JObject
            [ ("code", JString "USD"); ("codein", JString "BRL");
              ("name", JString "Dólar/Real"); ("high", JString "5.50");
              ("low", JString "5.40"); ("varBid", JString "0.01");
              ("pctChange", JString "0.18"); ("bid", JString "5.45");
              ("ask", JString "5.46"); ("timestamp", JString "1700000000");
              ("create_date", JString "2023-11-14 10:00:00") ]) ]).


(** The empty object. *)
Definition empty_body : Body := WellFormed (JObject []).

Definition healthy_driver (exec_latency : Duration) : Driver :=
  {| sql_open_fault := None; prepare_fault := None;
     exec_latency := exec_latency; exec_fault := None |}.

(** The upstream answers 200 with [body] after [latency]; the insert
    takes [exec_latency]. *)
Definition answering (latency : Duration) (body : Body) (exec_latency : Duration) : Env :=
  {| request_fault := None;
     upstream := {| latency := latency;
                    answer := inl {| resp_StatusCode := 200; resp_Body := body |} |};
     driver := healthy_driver exec_latency |}.

(** The upstream refuses the connection. *)
Definition refusing : Env :=
  {| request_fault := None;
     upstream := {| latency := 1 * Millisecond;
                    answer := inr (ErrNew "dial tcp: connection refused") |};
     driver := healthy_driver (1 * Millisecond) |}.

(** The flag defaults. *)
Definition rt : Duration := 200 * Millisecond.
Definition dbt : Duration := 10 * Millisecond.

(** The three environments of the server runs below: all is well; the
    upstream needs longer than the request timeout; the insert needs
    longer than the database timeout. *)
Definition healthy : Env := answering (50 * Millisecond) quotation_body (1 * Millisecond).
Definition slow_upstream : Env := answering (250 * Millisecond) quotation_body (1 * Millisecond).

(** The state in which the outbound call of a run from [started]
    returns at instant [now]. *)
Definition returned (now : Z) : State :=
  set_clock now (add_event (EvDo (outbound rt Background started)) (entered started)).

Definition quotation_response : Response :=
  {| resp_StatusCode := 200; resp_Body := quotation_body |}.

(** What [quotation_body] decodes to. *)
Definition quotation : USDBRLQuotation.t :=
  fst (Decode USDBRLQuotation.decode quotation_body USDBRLQuotation.zero).

(** A connection whose first write fails. *)
Definition broken : response := fresh_response [Some (ErrNew "write: broken pipe")].

(** The server's answer as the client meets it. *)
Definition server_says (code : Z) (body : Body) : Client.Env :=
  {| Client.request_fault := None;
     Client.server := {| latency := 60 * Millisecond;
                         answer := inl {| resp_StatusCode := code; resp_Body := body |} |};
     Client.disk := {| open_fault := None; write_fault := None |} |}.

(** A working directory that already holds one line. *)
Definition with_file : State :=
  {| clock := 0; store := ∅; files := {[ "cotacao.txt" := "Dólar: 5.40" +:+ newline ]};
     logged := []; trace := [] |}.

End Scenario.

(* ===================================================================== *)
(** * Properties *)
(* ===================================================================== *)

Import Go Server Terms.

(** ** Durations *)

Example Duration_String_200ms : Duration_String (200 * Millisecond) = "200ms".
Proof. reflexivity. Qed.

Example Duration_String_10ms : Duration_String (10 * Millisecond) = "10ms".
Proof. reflexivity. Qed.

Example Duration_String_1500ms : Duration_String (1500 * Millisecond) = "1.5s".
Proof. reflexivity. Qed.

Example Duration_String_1m : Duration_String Minute = "1m0s".
Proof. reflexivity. Qed.

Example Duration_String_0 : Duration_String 0 = "0s".
Proof. reflexivity. Qed.

(** ** The process monad *)

Lemma bind_Ret {A B : Type} (m : Proc A) (f : A -> Proc B) st a st' :
  m st = (Ret a, st') -> (m ≫= f) st = f a st'.
Proof. intros H. unfold mbind, Proc_bind. now rewrite H. Qed.

Lemma bind_Exit {A B : Type} (m : Proc A) (f : A -> Proc B) st code st' :
  m st = (Exit code, st') -> (m ≫= f) st = (Exit code, st').
Proof. intros H. unfold mbind, Proc_bind. now rewrite H. Qed.

Lemma log_Println_run operands st :
  log_Println operands st = (Ret tt, add_log (Sprintln operands) st).
Proof. reflexivity. Qed.

Lemma WithTimeout_run parent timeout st :
  WithTimeout parent timeout st = (Ret (WithDeadline parent (clock st + timeout)), st).
Proof. reflexivity. Qed.


Lemma Client_Do_returns peer req st :
  exists res st', Client_Do peer req st = (Ret res, st')
    /\ store st' = store st /\ files st' = files st /\ logged st' = logged st
    /\ trace st' = trace st ++ [EvDo req].
Proof.
  unfold Client_Do. destruct (expired _ _); eexists _, _; split; try reflexivity; simpl; auto.
Qed.

Lemma sendMsgError_run w msg code st :
  sendMsgError w msg code st =
    (Ret (fst (Encode (WriteHeader w code) (error_doc msg code))),
     add_log (Sprintln [msg]) st).
Proof.
  unfold sendMsgError. rewrite (bind_Ret _ _ _ _ _ (log_Println_run _ _)).
  unfold error_doc. destruct (Encode _ _). reflexivity.
Qed.

(** Run the handler up to its outbound call. *)
Ltac enter H :=
  unfold cotacaoHandler;
  rewrite (bind_Ret _ _ _ _ _ (log_Println_run _ _));
  rewrite (bind_Ret _ _ _ _ _ (WithTimeout_run _ _ _));
  unfold NewRequestWithContext; rewrite H;
  match goal with
  | |- context [clock (add_log ?l ?st) + ?t] =>
      change (clock (add_log l st)) with (clock st);
      match goal with
      | |- context [WithDeadline ?r _] => fold (outbound t r st); fold (entered st)
      end
  end.

Section Handler.

Variables (requestTimeout databaseTimeout : Duration) (env : Env).

Local Abbreviation handler := (cotacaoHandler requestTimeout databaseTimeout env).
Local Abbreviation save := (saveQuotationToDB databaseTimeout env).

Lemma handler_request_fault w r st err :
  request_fault env = Some err ->
  handler w r st =
    sendMsgError w (Sprint "GET /cotacao - falha ao criar requisi????o: " (error_Error err))
                 StatusInternalServerError (entered st).
Proof.
  intros H. unfold cotacaoHandler.
  rewrite (bind_Ret _ _ _ _ _ (log_Println_run _ _)).
  rewrite (bind_Ret _ _ _ _ _ (WithTimeout_run _ _ _)).
  unfold NewRequestWithContext. rewrite H. reflexivity.
Qed.


Lemma handler_decode_error w r st resp st1 cotacao err :
  request_fault env = None ->
  Client_Do (upstream env) (outbound requestTimeout r st) (entered st) = (Ret (inl resp), st1) ->
  Decode USDBRLQuotation.decode (resp_Body resp) USDBRLQuotation.zero = (cotacao, Some err) ->
  handler w r st =
    sendMsgError w
      (Sprint "GET /cotacao - falha ao decodificar corpo da requisi????o: " (error_Error err))
      StatusInternalServerError st1.
Proof.
  intros H Hdo Hdec. enter H.
  rewrite (bind_Ret _ _ _ _ _ Hdo). rewrite Hdec. reflexivity.
Qed.


Lemma handler_saved w r st resp st1 cotacao st2 :
  request_fault env = None ->
  Client_Do (upstream env) (outbound requestTimeout r st) (entered st) = (Ret (inl resp), st1) ->
  Decode USDBRLQuotation.decode (resp_Body resp) USDBRLQuotation.zero = (cotacao, None) ->
  save r cotacao st1 = (Ret None, st2) ->
  handler w r st = respond w cotacao st2.
Proof.
  intros H Hdo Hdec Hsave. enter H.
  rewrite (bind_Ret _ _ _ _ _ Hdo). rewrite Hdec.
  rewrite (bind_Ret _ _ _ _ _ Hsave). unfold respond, bid_doc.
  destruct (Encode _ _) as [w2 [e|]]; reflexivity.
Qed.

End Handler.

Section Save.

Variables (databaseTimeout : Duration) (env : Env).

Local Abbreviation save := (saveQuotationToDB databaseTimeout env).






(** The database deadline elapsing is one of the failures. *)
Lemma save_deadline ctx cotacao st :
  prepare_fault (driver env) = None ->
  check_stmt insertCotacao (store st) = None ->
  expired (insert_ctx databaseTimeout ctx st) (clock st + Z.max 0 (exec_latency (driver env))) = true ->
  exists st',
    save ctx cotacao st = (Ret (Some (Wrap "falha ao executar query. " DeadlineExceeded)), st')
    /\ store st' = store st.
Proof.
  intros Hp Hc He.
  unfold saveQuotationToDB, DB_Prepare, Stmt_ExecContext, WithTimeout, time_Now,
    mbind, mret, Proc_bind, Proc_ret, fmt_Errorf.
  rewrite Hp. cbn [store add_event]. rewrite Hc. cbn [clock add_event].
  unfold insert_ctx in He. rewrite He. eexists; split; reflexivity.
Qed.

End Save.


Lemma quotation_row_bid q : quotation_row q !! "bid" = Some (Quotation.Bid q).
Proof. reflexivity. Qed.

Lemma quotation_row_lookup q :
  map (fun c => quotation_row q !! c)
      [ "code"; "code_in"; "name"; "high"; "low"; "var_bid"; "pct_change"; "bid";
        "ask"; "timestamp"; "create_date" ]
  = map Some (quotation_args q).
Proof. reflexivity. Qed.

(** ** The response writer *)

Lemma WriteHeader_first w code :
  wroteHeader w = false ->
  wroteHeader (WriteHeader w code) = true /\ status (WriteHeader w code) = code
  /\ written (WriteHeader w code) = written w /\ writes (WriteHeader w code) = writes w.
Proof. intros H. unfold WriteHeader. rewrite H. auto. Qed.

Lemma WriteHeader_superfluous w code :
  wroteHeader w = true -> WriteHeader w code = w.
Proof. intros H. unfold WriteHeader. now rewrite H. Qed.

Lemma Encode_sent w doc :
  wroteHeader w = true ->
  let w' := fst (Encode w doc) in
  wroteHeader w' = true /\ status w' = status w
  /\ written w' = written w ++ (if accepts w then [doc] else [])
  /\ writes w' = tail (writes w)
  /\ (snd (Encode w doc) = None <-> accepts w = true).
Proof.
  intros H. unfold Encode, Write, accepts. rewrite H.
  destruct (writes w) as [|[e|] rest]; cbn; rewrite ?app_nil_r; intuition congruence.
Qed.

Lemma sendMsgError_spec w msg code st :
  exists w',
    sendMsgError w msg code st = (Ret w', add_log (Sprintln [msg]) st)
    /\ status w' = (if wroteHeader w then status w else code)
    /\ written w' = written w ++ (if accepts w then [error_doc msg code] else []).
Proof.
  rewrite sendMsgError_run. eexists; split; [reflexivity|].
  destruct (wroteHeader w) eqn:Hw.
  - rewrite (WriteHeader_superfluous _ _ Hw).
    destruct (Encode_sent w (error_doc msg code) Hw) as (_ & Hs & Hb & _). auto.
  - destruct (WriteHeader_first w code Hw) as (H1 & H2 & H3 & H4).
    destruct (Encode_sent _ (error_doc msg code) H1) as (_ & Hs & Hb & _).
    rewrite Hs, Hb, H2, H3. unfold accepts. rewrite H4. auto.
Qed.

Lemma events_app before after evs :
  trace after = trace before ++ evs -> events before after = evs.
Proof. intros H. unfold events. rewrite H. apply drop_app_length. Qed.


(** When the context of the request expires before the peer answers,
    the call fails with the deadline error. *)
Lemma Client_Do_deadline peer req st :
  expired (req_ctx req) (clock st + Z.max 0 (latency peer)) = true ->
  exists err st1,
    Client_Do peer req st = (Ret (inr err), st1) /\ errors_Is err DeadlineExceeded = true.
Proof.
  intros He. unfold Client_Do. cbn [clock add_event]. rewrite He.
  eexists _, _. split; reflexivity.
Qed.

Section Claims.

Variables (requestTimeout databaseTimeout : Duration) (env : Env).

Local Abbreviation handler := (cotacaoHandler requestTimeout databaseTimeout env).
Local Abbreviation save := (saveQuotationToDB databaseTimeout env).
Local Abbreviation call r st :=
  (Client_Do (upstream env) (outbound requestTimeout r st) (entered st)).
Local Abbreviation decoded body :=
  (Decode USDBRLQuotation.decode body USDBRLQuotation.zero).



(** The two failures the claims do not single out: the outbound
    request cannot be built, the upstream body cannot be decoded.
    Both go out with status 500 and a matching [status_code]. *)
Lemma request_failure w r st err :
  wroteHeader w = false ->
  request_fault env = Some err ->
  let msg := "GET /cotacao - falha ao criar requisi????o: " +:+ error_Error err in
  exists w' st',
    handler w r st = (Ret w', st')
    /\ status w' = StatusInternalServerError
    /\ written w' = written w ++
         (if accepts w then [error_doc msg StatusInternalServerError] else [])
    /\ events st st' = [].
Proof.
  intros Hw Hreq msg.
  rewrite (handler_request_fault _ _ _ _ _ _ _ Hreq).
  match goal with |- context [sendMsgError w ?m _ _] => change m with msg end.
  destruct (sendMsgError_spec w msg StatusInternalServerError (entered st)) as (w' & -> & Hs & Hb).
  rewrite Hw in Hs.
  eexists _, _. split; [reflexivity|]. split_and!; [exact Hs|exact Hb|].
  apply events_app. cbn. now rewrite app_nil_r.
Qed.

Lemma decode_failure w r st resp st1 cotacao err :
  wroteHeader w = false ->
  request_fault env = None ->
  call r st = (Ret (inl resp), st1) ->
  decoded (resp_Body resp) = (cotacao, Some err) ->
  let msg := "GET /cotacao - falha ao decodificar corpo da requisi????o: " +:+ error_Error err in
  exists w' st',
    handler w r st = (Ret w', st')
    /\ status w' = StatusInternalServerError
    /\ written w' = written w ++
         (if accepts w then [error_doc msg StatusInternalServerError] else [])
    /\ store st' = store st
    /\ events st st' = [EvDo (outbound requestTimeout r st)].
Proof.
  intros Hw Hreq Hdo Hdec msg.
  rewrite (handler_decode_error _ _ _ _ _ _ _ _ _ _ Hreq Hdo Hdec).
  match goal with |- context [sendMsgError w ?m _ _] => change m with msg end.
  destruct (sendMsgError_spec w msg StatusInternalServerError st1) as (w' & -> & Hs & Hb).
  rewrite Hw in Hs.
  destruct (Client_Do_returns (upstream env) (outbound requestTimeout r st) (entered st))
    as (res & st1' & Hdo' & Hst & _ & _ & Htr).
  rewrite Hdo in Hdo'. injection Hdo' as <- <-.
  eexists _, _. split; [reflexivity|]. split_and!; [exact Hs|exact Hb|exact Hst|].
  apply events_app. exact Htr.
Qed.



(** C5.  What the code does when the QuotationResponse cannot be
    written after the earlier steps succeeded: [sendMsgError] is called
    with 500, but the header went out with 200 before the write was
    tried, so the status of the response stays 200; the ErrorResponse,
    if the connection takes it, says 500. *)
Theorem encode_failure_keeps_200 w r st resp st1 cotacao st2 e rest :
  wroteHeader w = false ->
  request_fault env = None ->
  call r st = (Ret (inl resp), st1) ->
  decoded (resp_Body resp) = (cotacao, None) ->
  save r cotacao st1 = (Ret None, st2) ->
  writes w = Some e :: rest ->
  let msg := "GET /cotacao - falha ao enviar requisi????o: " +:+ error_Error e in
  exists w',
    handler w r st = (Ret w', add_log (Sprintln [msg]) st2)
    /\ status w' = StatusOK
    /\ status w' <> StatusInternalServerError
    /\ written w' = written w ++
         match rest with
         | Some _ :: _ => []
         | _ => [error_doc msg StatusInternalServerError]
         end.
Proof.
  intros Hw Hreq Hdo Hdec Hsave Hwr msg.
  rewrite (handler_saved _ _ _ _ _ _ _ _ _ _ Hreq Hdo Hdec Hsave).
  unfold respond, Encode at 1, Write, WriteHeader. rewrite Hw. cbn [wroteHeader writes].
  rewrite Hwr. change (Sprint _ (error_Error e)) with msg.
  cbn [status written].
  match goal with
  | |- context [sendMsgError ?w2 _ _ _] =>
      destruct (sendMsgError_spec w2 msg StatusInternalServerError st2) as (w' & -> & Hs & Hb)
  end.
  cbn in Hs, Hb. exists w'. split; [reflexivity|]. split_and!; [exact Hs| |].
  - rewrite Hs. discriminate.
  - rewrite Hb. unfold accepts. cbn. destruct rest as [|[e'|] rest']; reflexivity.
Qed.

End Claims.



(** Go through the members of an explicit list. *)
Ltac members H :=
  repeat (apply elem_of_cons in H as [H|H]);
  try (apply elem_of_nil in H; destruct H);
  try discriminate H.

Section Events.

Variables (requestTimeout databaseTimeout : Duration) (env : Env).

Local Abbreviation handler := (cotacaoHandler requestTimeout databaseTimeout env).
Local Abbreviation save := (saveQuotationToDB databaseTimeout env).




End Events.

(** ** Decoding *)





Section Members.

Context {T : Type} (field : string -> option (json -> T -> T * option error)).

Local Abbreviation step :=
  (fun (acc : T * option error) (kv : string * json) =>
     match field (fst kv) with
     | Some dec => let '(t, e) := dec (snd kv) (fst acc) in (t, saveError (snd acc) e)
     | None => acc
     end).





End Members.







Example decode_empty_object :
  USDBRLQuotation.decode (JObject []) USDBRLQuotation.zero = (USDBRLQuotation.zero, None).
Proof. reflexivity. Qed.

Section Missing.

Variables (requestTimeout databaseTimeout : Duration) (env : Env).

Local Abbreviation handler := (cotacaoHandler requestTimeout databaseTimeout env).
Local Abbreviation save := (saveQuotationToDB databaseTimeout env).
Local Abbreviation call r st :=
  (Client_Do (upstream env) (outbound requestTimeout r st) (entered st)).
Local Abbreviation decoded body :=
  (Decode USDBRLQuotation.decode body USDBRLQuotation.zero).


End Missing.

(** ** Startup *)

(** C9.  With the database reachable, [startDatabase] succeeds from
    any state; run again on what it left, it succeeds again and leaves
    the database as it was, and when table [cotacao] exists beforehand
    the first run already changes nothing. *)
Theorem startDatabase_idempotent (env : Env) (st : State) :
  sql_open_fault (driver env) = None ->
  exec_fault (driver env) = None ->
  exists st1 st2,
    startDatabase env st = (Ret tt, st1)
    /\ startDatabase env st1 = (Ret tt, st2)
    /\ store st2 = store st1
    /\ is_Some (store st1 !! "cotacao")
    /\ (is_Some (store st !! "cotacao") -> store st1 = store st).
Proof.
  intros Ho He.
  assert (Hrun : forall s,
    startDatabase env s =
      (Ret tt, match store s !! "cotacao" with
               | Some _ => add_event (EvExec createCotacao None []) s
               | None => set_store (<["cotacao" := {| tbl_columns :=
                             match createCotacao with
                             | CreateTableIfNotExists _ columns => columns
                             | _ => []
                             end; tbl_rows := [] |}]> (store s))
                           (add_event (EvExec createCotacao None []) s)
               end)).
  { intros s. unfold startDatabase, sql_Open, DB_Exec, mbind, Proc_bind. rewrite Ho, He.
    unfold run_stmt, createCotacao, check_stmt. cbn [store add_event].
    destruct (store s !! "cotacao"); reflexivity. }
  eexists _, _. split; [apply Hrun|]. split; [apply Hrun|].
  destruct (store st !! "cotacao") as [t|] eqn:Ht.
  - cbn [store add_event]. rewrite Ht. cbn [store add_event]. eauto.
  - cbn [store set_store add_event]. rewrite lookup_insert_eq.
    cbn [store set_store add_event].
    split_and!; [reflexivity|eauto|]. intros [? [=]].
Qed.

(** ** The client *)

Lemma Client_Do_files peer req st res st1 :
  Client_Do peer req st = (Ret res, st1) ->
  files st1 = files st /\ logged st1 = logged st /\ trace st1 = trace st ++ [EvDo req].
Proof.
  intros H. destruct (Client_Do_returns peer req st) as (res' & st1' & H' & _ & Hf & Hl & Ht).
  rewrite H in H'. injection H' as <- <-. auto.
Qed.

Lemma OpenFile_append disk name st :
  open_fault disk = None ->
  OpenFile disk name [O_APPEND; O_CREATE; O_RDWR] st =
    (Ret (inl {| f_name := name; f_flags := [O_APPEND; O_CREATE; O_RDWR] |}),
     set_files (match files st !! name with
                | Some _ => files st
                | None => <[name := ""]> (files st)
                end)
               (add_event (EvOpenFile name) st)).
Proof.
  intros H. unfold OpenFile. rewrite H. cbn [files add_event].
  change (has O_CREATE [O_APPEND; O_CREATE; O_RDWR]) with true.
  change (has O_TRUNC [O_APPEND; O_CREATE; O_RDWR]) with false.
  destruct (files st !! name); reflexivity.
Qed.

Lemma File_Write_append disk name data st :
  write_fault disk = None ->
  File_Write disk {| f_name := name; f_flags := [O_APPEND; O_CREATE; O_RDWR] |} data st =
    (Ret None,
     set_files (<[name := default "" (files st !! name) +:+ data]> (files st))
               (add_event (EvFileWrite name data) st)).
Proof.
  intros H. unfold File_Write. rewrite H. cbn [f_flags f_name files add_event].
  change (has O_WRONLY [O_APPEND; O_CREATE; O_RDWR]) with false.
  change (has O_RDWR [O_APPEND; O_CREATE; O_RDWR]) with true.
  change (has O_APPEND [O_APPEND; O_CREATE; O_RDWR]) with true.
  reflexivity.
Qed.

Lemma requests_app st evs st' :
  trace st' = trace st ++ evs ->
  Client.requests st' =
    Client.requests st ++ omap (fun ev => match ev with EvDo req => Some req | _ => None end) evs.
Proof. intros H. unfold Client.requests. rewrite H. apply omap_app. Qed.

Section ClientClaims.

Variables (requestTimeout : Duration) (env : Client.Env).

Local Abbreviation makeRequest := (Client.makeRequest requestTimeout env).

Lemma makeRequest_answered st resp st1 :
  Client.request_fault env = None ->
  Client_Do (Client.server env) (client_request requestTimeout st) st = (Ret (inl resp), st1) ->
  makeRequest st =
    (if resp_StatusCode resp =? StatusOK
     then Client.saveQuotationToFile env (resp_Body resp)
     else Client.handleError (resp_Body resp)) st1.
Proof.
  intros Hreq Hdo. unfold Client.makeRequest.
  rewrite (bind_Ret _ _ _ _ _ (WithTimeout_run _ _ _)).
  unfold NewRequestWithContext. rewrite Hreq.
  fold (client_request requestTimeout st).
  rewrite (bind_Ret _ _ _ _ _ Hdo). reflexivity.
Qed.


(** C8.  On a response with status 200 whose body decodes as a
    QuotationResponse, with the disk taking the open and the write,
    the client returns normally and the only file changed is
    [cotacao.txt]: its new content is its old content, or nothing when
    it did not exist, followed by the one line made of the label, the
    bid and a newline. *)
Theorem quotation_is_appended st resp st1 cotacao :
  Client.request_fault env = None ->
  Client_Do (Client.server env) (client_request requestTimeout st) st = (Ret (inl resp), st1) ->
  resp_StatusCode resp = StatusOK ->
  Decode Client.QuotationResponse.decode (resp_Body resp) Client.QuotationResponse.zero
    = (cotacao, None) ->
  open_fault (Client.disk env) = None ->
  write_fault (Client.disk env) = None ->
  let line := "Dólar: " +:+ Client.QuotationResponse.Bid cotacao +:+ newline in
  exists st',
    makeRequest st = (Ret tt, st')
    /\ files st' = <["cotacao.txt" := default "" (files st !! "cotacao.txt") +:+ line]> (files st)
    /\ Client.requests st' = Client.requests st ++ [client_request requestTimeout st].
Proof.
  intros Hreq Hdo Hcode Hdec Hopen Hwrite line.
  rewrite (makeRequest_answered _ _ _ Hreq Hdo).
  apply Z.eqb_eq in Hcode. rewrite Hcode.
  destruct (Client_Do_files _ _ _ _ _ Hdo) as (Hf & Hl & Ht).
  unfold Client.saveQuotationToFile. rewrite Hdec.
  erewrite bind_Ret by (apply OpenFile_append; exact Hopen).
  unfold Fprintln. erewrite bind_Ret by (apply File_Write_append; exact Hwrite).
  eexists. split; [reflexivity|].
  cbn [files add_log set_files add_event trace]. unfold Client.fileName. split.
  - rewrite Hf. destruct (files st !! "cotacao.txt") as [content|] eqn:Hc.
    + now rewrite Hc.
    + now rewrite lookup_insert_eq, insert_insert_eq.
  - apply (requests_app st
             [EvDo (client_request requestTimeout st); EvOpenFile "cotacao.txt";
              EvFileWrite "cotacao.txt" line]).
    cbn [trace add_log set_files add_event]. rewrite Ht, <- !app_assoc. reflexivity.
Qed.

End ClientClaims.

(** ** Concrete runs *)

Import Scenario.

(** The scenario of the specification: one row with the eleven values,
    and the bid in the answer. *)
Example quotation_scenario :
  let run := cotacaoHandler rt dbt healthy
               (fresh_response []) Background started in
  fst run = Ret {| wroteHeader := true; status := 200;
                   written := [JObject [("bid", JString "5.45")]]; writes := [] |}
  /\ (map (fun row : gmap string string => map (fun c => row !! c) cotacao_columns)
        <$> (tbl_rows <$> store (snd run) !! "cotacao")) =
       Some [ [ Some "USD"; Some "BRL"; Some "Dólar/Real"; Some "5.50"; Some "5.40";
                Some "0.01"; Some "0.18"; Some "5.45"; Some "5.46";
                Some "1700000000"; Some "2023-11-14 10:00:00" ] ].
Proof. vm_compute. split; reflexivity. Qed.

(** The upstream needing longer than the default 200ms: status 500,
    the duration in the message, no row. *)
Example timeout_scenario :
  let run := cotacaoHandler rt dbt slow_upstream
               (fresh_response []) Background started in
  fst run = Ret {| wroteHeader := true; status := 500;
                   written := [error_doc "requisi????o ultrapassou o tempo m??ximo de 200ms" 500];
                   writes := [] |}
  /\ (tbl_rows <$> store (snd run) !! "cotacao") = Some [].
Proof. vm_compute. split; reflexivity. Qed.

(** The insert may run beyond the deadline of the outbound call: the
    upstream answers after 195ms of the 200ms, the insert then has
    until 205ms. *)
Example insert_deadline_beyond_outbound :
  events started
    (snd (cotacaoHandler rt dbt (answering (195 * Millisecond) empty_body (1 * Millisecond))
            (fresh_response []) Background started))
  = [ EvDo {| req_method := "GET"; req_url := cotacaoURL;
              req_ctx := {| ctx_deadline := Some (200 * Millisecond) |} |};
      EvPrepare insertCotacao;
      EvExec insertCotacao (Some {| ctx_deadline := Some (205 * Millisecond) |})
             [""; ""; ""; ""; ""; ""; ""; ""; ""; ""; ""] ].
Proof. vm_compute. reflexivity. Qed.



(** Keys are matched without regard to case: a body without the key
    [USDBRL] as such can still carry a quotation. *)
Example lower_case_key :
  Decode USDBRLQuotation.decode
    (WellFormed (JObject [("usdbrl", JObject [("BID", JString "5.45")])]))
    USDBRLQuotation.zero
  = ({| USDBRLQuotation.Quotation := Quotation.set_Bid "5.45" Quotation.zero |}, None).
Proof. reflexivity. Qed.

(** C6.  The run in which the QuotationResponse cannot be written and
    the ErrorResponse can: the status of the response is 200 and the
    [status_code] in its body is 500. *)
Theorem error_body_contradicts_status :
  fst (cotacaoHandler rt dbt healthy broken Background started)
  = Ret {| wroteHeader := true; status := StatusOK;
           written :=
             [JObject [("error", JString "GET /cotacao - falha ao enviar requisi????o: write: broken pipe");
                       ("status_code", JInt StatusInternalServerError)]];
           writes := [] |}.
Proof. vm_compute. reflexivity. Qed.





Lemma encode_failure_keeps_200_witness :
  exists w',
    fst (cotacaoHandler rt dbt healthy broken Background started) = Ret w'
    /\ status w' = StatusOK
    /\ status w' <> StatusInternalServerError
    /\ written w' =
         [error_doc "GET /cotacao - falha ao enviar requisi????o: write: broken pipe" 500].
Proof.
  destruct (encode_failure_keeps_200 rt dbt healthy broken Background started
              quotation_response (returned (50 * Millisecond)) quotation
              (snd (saveQuotationToDB dbt healthy Background quotation
                      (returned (50 * Millisecond))))
              (ErrNew "write: broken pipe") [])
    as (w' & Hrun & Hs & Hn & Hb).
  1-6: vm_compute; reflexivity.
  exists w'. rewrite Hrun. auto.
Defined.


Lemma startDatabase_idempotent_witness :
  exists st1 st2,
    startDatabase healthy blank = (Ret tt, st1)
    /\ startDatabase healthy st1 = (Ret tt, st2)
    /\ store st2 = store st1
    /\ is_Some (store st1 !! "cotacao")
    /\ (is_Some (store blank !! "cotacao") -> store st1 = store blank).
Proof.
  apply (startDatabase_idempotent healthy blank); reflexivity.
Defined.

(** The server's ErrorResponse, as the client reads it. *)
Example error_doc_read :
  Decode Client.ErrorResponse.decode (WellFormed (error_doc "boom" 500))
    Client.ErrorResponse.zero
  = ({| Client.ErrorResponse.Error := "boom"; Client.ErrorResponse.StatusCode := 500 |}, None).
Proof. reflexivity. Qed.


Lemma quotation_is_appended_witness :
  exists st',
    Client.makeRequest rt (server_says 200 (WellFormed (bid_doc "5.45"))) with_file
      = (Ret tt, st')
    /\ files st' = <["cotacao.txt" := "Dólar: 5.40" +:+ newline +:+ "Dólar: 5.45" +:+ newline]>
                     (files with_file)
    /\ Client.requests st' = [client_request rt with_file].
Proof.
  apply (quotation_is_appended rt (server_says 200 (WellFormed (bid_doc "5.45"))) with_file
           {| resp_StatusCode := 200; resp_Body := WellFormed (bid_doc "5.45") |}
           (set_clock (60 * Millisecond) (add_event (EvDo (client_request rt with_file)) with_file))
           {| Client.QuotationResponse.Bid := "5.45" |}).
  all: vm_compute; reflexivity.
Defined.

(** A first run of the client: the file is created with the one line. *)
Example first_run_creates_file :
  files (snd (Client.makeRequest rt (server_says 200 (WellFormed (bid_doc "5.45"))) blank))
    !! "cotacao.txt"
  = Some ("Dólar: 5.45" +:+ newline).
Proof. vm_compute. reflexivity. Qed.
